(** * MCPClientDemo: the agent registry and the MCP client connection

    A shallow embedding of [src/api/Agents/Agent.py] (class [Agent]) and of
    [src/api/client.py] (class [MCPClient]).

    Python objects that are shared by reference (the [mcp_servers] dict) live
    in a heap of dict objects; attributes of [self] are fields of a record;
    methods are computations in a state-and-exception monad, so that what a
    method has mutated when it raises is part of its result. *)

From stdpp Require Import base strings list gmap.

Open Scope string_scope.

(** ** Python exceptions and results *)

Inductive exn : Type :=
  | ValueError (msg : string)
  | NotImplementedError (msg : string)
  | NameError (name : string)
  | KeyError (key : string)
  | StopIteration
  | TypeError (msg : string)
  | LibraryError (what : string).

Inductive result (A : Type) : Type :=
  | Ok (a : A)
  | Raise (e : exn).
Arguments Ok {A} a.
Arguments Raise {A} e.

Definition is_raise {A} (r : result A) : bool :=
  match r with Raise _ => true | Ok _ => false end.

(** ** Python strings *)

(** [s.endswith(suffix)] *)
Fixpoint endswith (s suffix : string) : bool :=
  bool_decide (s = suffix) ||
  match s with
  | EmptyString => false
  | String _ s' => endswith s' suffix
  end.

(** Truth value of an [Optional[str]]: [None] and [''] are falsy. *)
Definition truthy (o : option string) : bool :=
  match o with
  | None => false
  | Some s => negb (bool_decide (s = EmptyString))
  end.

(** [a or b] on [Optional[str]] operands. *)
Definition py_or (a b : option string) : option string :=
  if truthy a then a else b.

(** [s.replace(old, new)] from position [skip] on: the occurrences of a
    non-empty [old] are taken from the left and do not overlap. *)
Fixpoint replace_from (old new : string) (skip : nat) (s : string) : string :=
  match s with
  | EmptyString => EmptyString
  | String c s' =>
      match skip with
      | S k => replace_from old new k s'
      | O =>
          if String.prefix old s
          then new +:+ replace_from old new (String.length old - 1) s'
          else String c (replace_from old new 0 s')
      end
  end.

(** [new] after every character: what [replace] does for an empty [old],
    which matches at every position. *)
Fixpoint follow_each (new s : string) : string :=
  match s with
  | EmptyString => EmptyString
  | String c s' => String c (new +:+ follow_each new s')
  end.

(** [s.replace(old, new)] *)
Definition replace (s old new : string) : string :=
  match old with
  | EmptyString => new +:+ follow_each new s
  | String _ _ => replace_from old new 0 s
  end.

(** ** Python dicts

    A dict is kept as the list of its items in insertion order, the order
    [iter] walks it in.  A dict holds a key at most once ([dict_wf]); every
    operation below keeps it so. *)

Definition Config : Type := list (string * string).

Definition dict : Type := list (string * Config).

Definition dict_keys (d : dict) : list string := d.*1.

Definition dict_wf (d : dict) : Prop := NoDup (dict_keys d).

(** [k in d] *)
Definition dict_contains (k : string) (d : dict) : bool :=
  bool_decide (k ∈ dict_keys d).

(** [d[k]] as [d.get(k)] *)
Fixpoint dict_get (k : string) (d : dict) : option Config :=
  match d with
  | [] => None
  | (k', v') :: d' => if decide (k' = k) then Some v' else dict_get k d'
  end.

(** [d[k] = v]: an existing key keeps its place, a new key goes last. *)
Fixpoint dict_setitem (k : string) (v : Config) (d : dict) : dict :=
  match d with
  | [] => [(k, v)]
  | (k', v') :: d' =>
      if decide (k' = k) then (k, v) :: d' else (k', v') :: dict_setitem k v d'
  end.

(** The items left by [d.pop(k)]. *)
Definition dict_remove (k : string) (d : dict) : dict :=
  filter (λ kv, kv.1 ≠ k) d.

(** [bool(d)] *)
Definition dict_truthy (d : dict) : bool :=
  match d with [] => false | _ :: _ => true end.

(** [next(iter(d))] *)
Definition dict_next_iter (d : dict) : result string :=
  match d with
  | [] => Raise StopIteration
  | (k, _) :: _ => Ok k
  end.

(** ** The heap of dict objects *)

Definition loc : Type := nat.

Abbreviation heap := (gmap loc dict).

Definition deref (h : heap) (l : loc) : dict := default [] (h !! l).

(** [{}]: a new, empty dict object. *)
Definition alloc_dict (h : heap) : loc * heap :=
  let l := fresh (dom h) in (l, <[l := []]> h).

(** ** The state-and-exception monad

    A computation runs on a state and gives a result together with the
    state it leaves; a raised exception keeps the mutations made before it. *)

Definition M (S A : Type) : Type := S → result A * S.

Definition ret {S A} (a : A) : M S A := λ s, (Ok a, s).

Definition bind {S A B} (m : M S A) (k : A → M S B) : M S B :=
  λ s, match m s with
       | (Ok a, s') => k a s'
       | (Raise e, s') => (Raise e, s')
       end.

Definition raise {S A} (e : exn) : M S A := λ s, (Raise e, s).

Definition gets {S A} (f : S → A) : M S A := λ s, (Ok (f s), s).

Definition modify {S} (f : S → S) : M S unit := λ s, (Ok tt, f s).

(** An expression that may raise, evaluated in the current state. *)
Definition lift {S A} (f : S → result A) : M S A := λ s, (f s, s).

Declare Scope py_scope.
Delimit Scope py_scope with py.
Notation "x <- m ;; k" := (bind m (λ x, k))
  (at level 100, m at next level, right associativity) : py_scope.
Notation "m ;;; k" := (bind m (λ _, k))
  (at level 100, right associativity) : py_scope.
Open Scope py_scope.

(** * [Agent.py]: class [Agent] *)

Module Agent.

(** The attributes of an [Agent] object.  [mcp_servers] is a reference to
    a dict object of the heap. *)
Record Agent : Type := mkAgent {
  name : string;
  instructions : string;
  mcp_servers : loc;
  active_mcp_server : option string;
  config : Config;
}.

(** What a method runs on: the heap and the object [self]. *)
Record World : Type := mkWorld {
  objects : heap;
  self : Agent;
}.

Definition set_active (a : option string) (w : World) : World :=
  mkWorld (objects w)
          (mkAgent (name (self w)) (instructions (self w))
                   (mcp_servers (self w)) a (config (self w))).

Definition set_dict (l : loc) (d : dict) (w : World) : World :=
  mkWorld (<[l := d]> (objects w)) (self w).

(** The dict [self.mcp_servers] refers to. *)
Definition registry (w : World) : dict :=
  deref (objects w) (mcp_servers (self w)).

(** [Agent.__init__], lines 27-32.  [mcp_servers] is [None] or a reference
    to the caller's dict; [kwargs] is the keyword bag. *)
Definition init (name instructions : string) (mcp_servers : option loc)
    (kwargs : Config) (h : heap) : result World :=
  (* self.mcp_servers = mcp_servers or {} *)
  let '(servers, h1) :=
    match mcp_servers with
    | Some l => if dict_truthy (deref h l) then (l, h) else alloc_dict h
    | None => alloc_dict h
    end in
  (* next(iter(self.mcp_servers)) if self.mcp_servers else None *)
  let active :=
    if dict_truthy (deref h1 servers)
    then match dict_next_iter (deref h1 servers) with
         | Ok k => Ok (Some k)
         | Raise e => Raise e
         end
    else Ok None in
  match active with
  | Ok a => Ok (mkWorld h1 (mkAgent name instructions servers a kwargs))
  | Raise e => Raise e
  end.

(** [add_mcp_server], lines 72-82. *)
Definition add_mcp_server (server_name : string) (cfg : Config)
    : M World unit :=
  (* self.mcp_servers[server_name] = config *)
  modify (λ w, set_dict (mcp_servers (self w))
                 (dict_setitem server_name cfg (registry w)) w) ;;;
  active <- gets (λ w, active_mcp_server (self w)) ;;
  match active with
  | None => modify (set_active (Some server_name))
  | Some _ => ret tt
  end.

(** [self.mcp_servers.pop(server_name)] *)
Definition pop (server_name : string) : M World Config :=
  λ w, match dict_get server_name (registry w) with
       | Some v => (Ok v, set_dict (mcp_servers (self w))
                            (dict_remove server_name (registry w)) w)
       | None => (Raise (KeyError server_name), w)
       end.

(** [remove_mcp_server], lines 84-100. *)
Definition remove_mcp_server (server_name : string) : M World bool :=
  present <- gets (λ w, dict_contains server_name (registry w)) ;;
  if present : bool then
    pop server_name ;;;
    active <- gets (λ w, active_mcp_server (self w)) ;;
    (if bool_decide (active = Some server_name) then
       nonempty <- gets (λ w, dict_truthy (registry w)) ;;
       if nonempty : bool then
         first <- lift (λ w, dict_next_iter (registry w)) ;;
         modify (set_active (Some first))
       else modify (set_active None)
     else ret tt) ;;;
    ret true
  else ret false.

(** [set_active_mcp_server], lines 102-115. *)
Definition set_active_mcp_server (server_name : string) : M World bool :=
  present <- gets (λ w, dict_contains server_name (registry w)) ;;
  if present : bool then
    modify (set_active (Some server_name)) ;;;
    ret true
  else ret false.

(** [get_mcp_servers], lines 117-124: the attribute itself, a reference. *)
Definition get_mcp_servers : M World loc :=
  gets (λ w, mcp_servers (self w)).

(** [target_server not in self.mcp_servers]; [None] is no key of a dict
    of strings. *)
Definition not_in (target_server : option string) (d : dict) : bool :=
  match target_server with
  | Some k => negb (dict_contains k d)
  | None => true
  end.

(** [f"{target_server}"] *)
Definition format (target_server : option string) : string :=
  match target_server with Some k => k | None => "None" end.

(** [execute_tool], lines 127-155. *)
Definition execute_tool (tool_name : string) (tool_input : Config)
    (server_name : option string) : M World Config :=
  active <- gets (λ w, active_mcp_server (self w)) ;;
  let target_server := py_or server_name active in
  if negb (truthy target_server) then
    raise (ValueError
             "No MCP server specified and no active server configured")
  else
    absent <- gets (λ w, not_in target_server (registry w)) ;;
    if absent : bool then
      raise (ValueError
               ("MCP server '" +:+ format target_server +:+ "' not found"))
    else
      raise (NotImplementedError
               "Tool execution must be implemented by subclasses").

(** [get_available_tools], lines 157-179. *)
Definition get_available_tools (server_name : option string)
    : M World (list Config) :=
  active <- gets (λ w, active_mcp_server (self w)) ;;
  let target_server := py_or server_name active in
  if negb (truthy target_server) then
    raise (ValueError
             "No MCP server specified and no active server configured")
  else
    absent <- gets (λ w, not_in target_server (registry w)) ;;
    if absent : bool then
      raise (ValueError
               ("MCP server '" +:+ format target_server +:+ "' not found"))
    else
      raise (NotImplementedError
               "Getting available tools must be implemented by subclasses").

(** The two [ValueError]s of lines 149 and 152. *)
Definition no_server_error : exn :=
  ValueError "No MCP server specified and no active server configured".

Definition not_found_error (target : string) : exn :=
  ValueError ("MCP server '" +:+ target +:+ "' not found").

(** What a caller does to a dict it holds a reference to:
    [d[k] = v], [d.pop(k, None)], [d.clear()]. *)
Inductive mutation : Type :=
  | SetItem (k : string) (v : Config)
  | DelItem (k : string)
  | Clear.

Definition mutated (m : mutation) (d : dict) : dict :=
  match m with
  | SetItem k v => dict_setitem k v d
  | DelItem k => dict_remove k d
  | Clear => []
  end.

Definition mutate (l : loc) (m : mutation) : M World unit :=
  modify (λ w, set_dict l (mutated m (deref (objects w) l)) w).

(** Sample states: an agent with no server, with the one server [a],
    and with the servers [a] and [b], [a] active. *)
Definition no_servers : World :=
  mkWorld {[ 0 := [] ]} (mkAgent "assistant" "answer" 0 None []).

Definition one_server : World :=
  mkWorld {[ 0 := [("a", [("command", "python")])] ]}
          (mkAgent "assistant" "answer" 0 (Some "a") []).

Definition two_servers : World :=
  mkWorld {[ 0 := [("a", [("command", "python")]);
                   ("b", [("command", "node")])] ]}
          (mkAgent "assistant" "answer" 0 (Some "a") []).

(** A call of one of the three registry methods. *)
Inductive call : Type :=
  | AddServer (server_name : string) (cfg : Config)
  | RemoveServer (server_name : string)
  | SetActive (server_name : string).

Definition do_call (c : call) : M World unit :=
  match c with
  | AddServer n cfg => add_mcp_server n cfg
  | RemoveServer n => remove_mcp_server n ;;; ret tt
  | SetActive n => set_active_mcp_server n ;;; ret tt
  end.

Fixpoint do_calls (cs : list call) : M World unit :=
  match cs with
  | [] => ret tt
  | c :: cs' => do_call c ;;; do_calls cs'
  end.

(** The active selection is [None] exactly when the registry is empty,
    and a set selection is a key of the registry. *)
Definition active_consistent (w : World) : Prop :=
  (active_mcp_server (self w) = None ↔ registry w = []) ∧
  (∀ a, active_mcp_server (self w) = Some a → a ∈ dict_keys (registry w)).

(** The dict [get_agent_info] builds, by its four keys. *)
Record AgentInfo : Type := mkInfo {
  info_name : string;
  info_provider : string;
  info_active_mcp_server : option string;
  info_mcp_servers : list string;
}.

(** [get_agent_info], lines 181-193.  [class_name] is
    [self.__class__.__name__], the name of the class the object was made
    from. *)
Definition get_agent_info (class_name : string) : M World AgentInfo :=
  gets (λ w, {| info_name := name (self w);
                info_provider := replace class_name "Agent" EmptyString;
                info_active_mcp_server := active_mcp_server (self w);
                info_mcp_servers := dict_keys (registry w) |}).

End Agent.

(** * [client.py]: class [MCPClient] *)

Module Client.

(** [mcp.StdioServerParameters] *)
Record StdioServerParameters : Type := mkParams {
  command : string;
  args : list string;
  env : option Config;
}.

(** The two ends of a stdio transport. *)
Inductive stream : Type := ReadStream | WriteStream.

(** [mcp.ClientSession(read, write)] *)
Record ClientSession : Type := mkSession {
  read_stream : stream;
  write_stream : stream;
}.

(** An async context manager entered on an [AsyncExitStack], released
    when the stack is closed. *)
Inductive context : Type :=
  | StdioTransport (server : StdioServerParameters)
  | SessionContext (s : ClientSession).

(** The attributes of an [MCPClient] object; [stdio] and [write] are
    unset until line 28 assigns them. *)
Record MCPClient : Type := mkClient {
  session : option ClientSession;
  exit_stack : list context;
  llm : option string;
  tools : list string;
  message : list string;
  stdio : option stream;
  write : option stream;
}.

(** The server side of a connection, as the [mcp] library meets it:
    whether the subprocess and its pipes can be set up, and whether the
    server answers the [initialize] request. *)
Record Server : Type := mkServer {
  transport_opens : bool;
  initialize_succeeds : bool;
}.

(** What a method runs on: the object [self], the subprocesses running,
    and the server there is to connect to. *)
Record World : Type := mkWorld {
  self : MCPClient;
  processes : list StdioServerParameters;
  server : Server;
}.

(** [MCPClient.__init__], lines 8-13. *)
Definition init : MCPClient :=
  {| session := None; exit_stack := []; llm := None; tools := [];
     message := []; stdio := None; write := None |}.

(** A value a name of [connect_to_local_mcp] can be bound to at line 27. *)
Inductive value : Type :=
  | VParams (p : StdioServerParameters)
  | VModule (name : string).

(** The names bound at the top level of [client.py]: its imports and its
    class.  (No built-in is called [server_params].) *)
Definition module_globals : list string :=
  ["Optional"; "AsyncExitStack"; "ClientSession"; "StdioServerParameters";
   "stdio_client"; "asyncio"; "MCPClient"].

(** Loading a name that the function body never assigns. *)
Definition load_global (x : string) : result value :=
  if bool_decide (x ∈ module_globals) then Ok (VModule x)
  else Raise (NameError x).

Definition push (c : context) (w : World) : World :=
  let s := self w in
  mkWorld (mkClient (session s) (c :: exit_stack s) (llm s) (tools s)
                    (message s) (stdio s) (write s))
          (processes w) (server w).

Definition set_streams (t : stream * stream) (w : World) : World :=
  let s := self w in
  mkWorld (mkClient (session s) (exit_stack s) (llm s) (tools s)
                    (message s) (Some t.1) (Some t.2))
          (processes w) (server w).

Definition set_session (c : ClientSession) (w : World) : World :=
  let s := self w in
  mkWorld (mkClient (Some c) (exit_stack s) (llm s) (tools s)
                    (message s) (stdio s) (write s))
          (processes w) (server w).

Definition spawn (p : StdioServerParameters) (w : World) : World :=
  mkWorld (self w) (p :: processes w) (server w).

(** [await self.exit_stack.enter_async_context(stdio_client(server))]:
    the subprocess is started and the transport goes on the exit stack,
    or the library raises and nothing is kept. *)
Definition enter_stdio_client (server_arg : value)
    : M World (stream * stream) :=
  match server_arg with
  | VParams p =>
      opens <- gets (λ w, transport_opens (server w)) ;;
      if opens : bool then
        modify (spawn p) ;;;
        modify (push (StdioTransport p)) ;;;
        ret (ReadStream, WriteStream)
      else raise (LibraryError "stdio_client")
  | VModule _ => raise (TypeError "stdio_client")
  end.

(** [await self.exit_stack.enter_async_context(ClientSession(r, w))] *)
Definition enter_client_session (r w : option stream)
    : M World ClientSession :=
  match r, w with
  | Some r, Some w =>
      modify (push (SessionContext (mkSession r w))) ;;;
      ret (mkSession r w)
  | _, _ => raise (TypeError "ClientSession")
  end.

(** [await self.session.initialize()] *)
Definition initialize : M World unit :=
  ok <- gets (λ w, initialize_succeeds (server w)) ;;
  if ok : bool then ret tt else raise (LibraryError "initialize").

(** Lines 27-31 of [connect_to_local_mcp], from the value of the argument
    of [stdio_client] on. *)
Definition open_session (server_arg : value) : M World unit :=
  stdio_transport <- enter_stdio_client server_arg ;;
  modify (set_streams stdio_transport) ;;;
  r <- gets (λ w, stdio (self w)) ;;
  wr <- gets (λ w, write (self w)) ;;
  s <- enter_client_session r wr ;;
  modify (set_session s) ;;;
  initialize.

(** [connect_to_local_mcp], lines 16-31. *)
Definition connect_to_local_mcp (server_script_path : string)
    : M World unit :=
  let is_python := endswith server_script_path ".py" in
  let is_js := endswith server_script_path ".js" in
  if negb (is_python || is_js) then
    raise (ValueError "Server script must be a .py or .js file")
  else
    let command := if is_python then "python" else "node" in
    let server_parameters :=
      {| command := command; args := [server_script_path]; env := None |} in
    (* line 27 names [server_params], which is not [server_parameters] *)
    server_params <- lift (λ _, load_global "server_params") ;;
    open_session server_params.

(** Nothing acquired: no context on the exit stack, no attribute set by
    lines 27-29. *)
Definition nothing_acquired (w : World) : Prop :=
  exit_stack (self w) = [] ∧ session (self w) = None ∧ processes w = [].

End Client.

(** * [AzureOpenAIAgent.py] *)

Module AzureOpenAIAgent.

(** The four names that lines 8-11 bind. *)
Record Settings : Type := mkSettings {
  BASE_URL : option string;
  API_KEY : option string;
  API_VERSION : string;
  MODEL_NAME : string;
}.

(** [os.getenv(key)] and [os.getenv(key, default)] *)
Definition getenv (environ : gmap string string) (key : string)
    : option string :=
  environ !! key.

Definition getenv_default (environ : gmap string string) (key dflt : string)
    : string :=
  default dflt (environ !! key).

(** Lines 8-14: the environment read and checked.  [environ] is
    [os.environ] as [load_dotenv] leaves it.  The making of the client,
    from line 15 on, is the library's and is not part of this. *)
Definition read_environment (environ : gmap string string)
    : result Settings :=
  let base_url := getenv environ "AZURE_OPENAI_API_BASE" in
  let api_key := getenv environ "AZURE_OPENAI_API_KEY" in
  let api_version :=
    getenv_default environ "AZURE_OPENAI_API_VERSION" "2023-05-15" in
  let model_name :=
    getenv_default environ "AZURE_OPENAI_MODEL_NAME" "gpt-4o" in
  if negb (truthy base_url) || negb (truthy api_key) then
    Raise (ValueError
      "Azure OpenAI API base URL and API key must be set in environment variables.")
  else
    Ok (mkSettings base_url api_key api_version model_name).

(** A class, by what decides whether an object of it can be made: the
    abstract method names of its bases, and the methods its body defines,
    each marked abstract ([@abstractmethod]) or not. *)
Record pyclass : Type := mkClass {
  cls_name : string;
  cls_inherited : list string;
  cls_methods : list (string * bool);
}.

(** [cls.__abstractmethods__], as [ABCMeta] computes it: the abstract
    methods of the body, and the inherited abstract names that the body
    does not define. *)
Definition abstractmethods (c : pyclass) : list string :=
  ((filter (λ m, m.2 = true) (cls_methods c)).*1 ++
   filter (λ n, n ∉ (cls_methods c).*1) (cls_inherited c))%list.


(** [class Agent(ABC)], [Agent.py] lines 4-196. *)
Definition Agent_class : pyclass :=
  mkClass "Agent" []
    [("__init__", false); ("query", true); ("get_token_count", true);
     ("add_mcp_server", false); ("remove_mcp_server", false);
     ("set_active_mcp_server", false); ("get_mcp_servers", false);
     ("execute_tool", false); ("get_available_tools", false);
     ("get_agent_info", false); ("__repr__", false)].


End AzureOpenAIAgent.

(** * Properties *)

(** ** Strings and dicts *)

Lemma endswith_spec (s suffix : string) :
  endswith s suffix = true ↔ ∃ p, s = p +:+ suffix.
Proof.
  induction s as [|c s IH]; simpl.
  - rewrite orb_false_r, bool_decide_eq_true. split.
    + intros <-. by exists EmptyString.
    + intros [[|c p] Hp]; simpl in Hp; [done | discriminate].
  - rewrite orb_true_iff, bool_decide_eq_true, IH. split.
    + intros [<- | [p ->]]; [by exists EmptyString | by exists (String c p)].
    + intros [[|c' p] Hp]; simpl in Hp; [by left | right].
      injection Hp as -> ->. by exists p.
Qed.

Lemma dict_contains_true (k : string) (d : dict) :
  dict_contains k d = true ↔ k ∈ dict_keys d.
Proof. unfold dict_contains. apply bool_decide_eq_true. Qed.

Lemma dict_contains_false (k : string) (d : dict) :
  dict_contains k d = false ↔ k ∉ dict_keys d.
Proof. unfold dict_contains. apply bool_decide_eq_false. Qed.

Lemma dict_setitem_keys (k k' : string) (v : Config) (d : dict) :
  k' ∈ dict_keys (dict_setitem k v d) ↔ k' = k ∨ k' ∈ dict_keys d.
Proof.
  unfold dict_keys. induction d as [|[k0 v0] d IH]; simpl.
  - rewrite list_elem_of_singleton, elem_of_nil. tauto.
  - destruct (decide (k0 = k)) as [->|Hne]; simpl; rewrite !elem_of_cons.
    + tauto.
    + rewrite IH. tauto.
Qed.

Lemma dict_setitem_nonempty (k : string) (v : Config) (d : dict) :
  dict_setitem k v d ≠ [].
Proof. destruct d as [|[k0 v0] d]; simpl; [done | by case_decide]. Qed.

Lemma dict_remove_keys (k k' : string) (d : dict) :
  k' ∈ dict_keys (dict_remove k d) ↔ k' ≠ k ∧ k' ∈ dict_keys d.
Proof.
  unfold dict_keys, dict_remove. rewrite !list_elem_of_fmap. split.
  - intros [[k0 v0] [-> Hin]]. apply list_elem_of_filter in Hin as [Hne Hin].
    split; [done | by exists (k0, v0)].
  - intros [Hne [[k0 v0] [-> Hin]]]. exists (k0, v0). split; [done |].
    by apply list_elem_of_filter.
Qed.

Lemma dict_get_is_Some (k : string) (d : dict) :
  k ∈ dict_keys d → is_Some (dict_get k d).
Proof.
  unfold dict_keys. induction d as [|[k0 v0] d IH]; simpl.
  - by intros ?%elem_of_nil.
  - intros Hin. destruct (decide (k0 = k)) as [->|Hne]; [by eexists |].
    apply IH. apply elem_of_cons in Hin as [->|Hin]; [done | exact Hin].
Qed.

(** The three updates keep a dict a dict: no key comes to be held twice. *)
Lemma dict_setitem_wf (k : string) (v : Config) (d : dict) :
  dict_wf d → dict_wf (dict_setitem k v d).
Proof.
  unfold dict_wf. induction d as [|[k0 v0] d IH]; simpl.
  - intros _. apply NoDup_singleton.
  - unfold dict_keys in *. simpl. intros [Hk0 Hd]%NoDup_cons.
    destruct (decide (k0 = k)) as [->|Hne]; simpl.
    + by apply NoDup_cons.
    + apply NoDup_cons. split; [|by apply IH].
      intros [?|?]%dict_setitem_keys; [by subst | done].
Qed.

Lemma dict_remove_wf (k : string) (d : dict) :
  dict_wf d → dict_wf (dict_remove k d).
Proof.
  unfold dict_wf, dict_remove, dict_keys. intros Hd.
  induction d as [|[k0 v0] d IH]; simpl; [done |].
  apply NoDup_cons in Hd as [Hk0 Hd].
  rewrite (filter_cons (λ kv : string * Config, kv.1 ≠ k)).
  case_decide; simpl; [|by apply IH].
  apply NoDup_cons. split; [|by apply IH].
  intros Hin. apply Hk0. by apply (dict_remove_keys k k0 d) in Hin as [_ ?].
Qed.

(** On a dict, [dict_remove] takes out the one item of the key and leaves
    every other item, in order. *)
Lemma dict_remove_get (k k' : string) (d : dict) :
  dict_get k' (dict_remove k d) = if decide (k' = k) then None else dict_get k' d.
Proof.
  unfold dict_remove. induction d as [|[k0 v0] d IH].
  - simpl. by case_decide.
  - rewrite (filter_cons (λ kv : string * Config, kv.1 ≠ k)).
    cbn [fst dict_get]. destruct (decide (k0 ≠ k)) as [Hne|Heq].
    + cbn [dict_get]. destruct (decide (k0 = k')) as [<-|Hne'].
      * by rewrite decide_False.
      * exact IH.
    + apply dec_stable in Heq. etrans; [apply IH |].
      destruct (decide (k' = k)) as [Heq'|Hne]; [done |].
      rewrite decide_False; [done | congruence].
Qed.

Lemma deref_insert (h : heap) (l : loc) (d : dict) : deref (<[l := d]> h) l = d.
Proof. unfold deref. by rewrite lookup_insert_eq. Qed.

Lemma deref_insert_ne (h : heap) (l l' : loc) (d : dict) :
  l ≠ l' → deref (<[l := d]> h) l' = deref h l'.
Proof. intros Hne. unfold deref. by rewrite lookup_insert_ne. Qed.

Lemma deref_fresh (h : heap) : deref h (fresh (dom h)) = [].
Proof.
  unfold deref. rewrite (not_elem_of_dom_1 h (fresh (dom h))); [done |].
  apply is_fresh.
Qed.

(** ** The agent registry *)

Module AgentProps.
Import Agent.

Lemma registry_set_dict (w : World) (d : dict) :
  registry (set_dict (mcp_servers (self w)) d w) = d.
Proof. unfold registry, set_dict. simpl. apply deref_insert. Qed.

Lemma registry_set_active (w : World) (a : option string) :
  registry (set_active a w) = registry w.
Proof. reflexivity. Qed.

(** What each method leaves, as one equation per path. *)

Lemma add_mcp_server_run (n : string) (cfg : Config) (w : World) :
  add_mcp_server n cfg w =
    (Ok tt,
     let w1 := set_dict (mcp_servers (self w))
                 (dict_setitem n cfg (registry w)) w in
     match active_mcp_server (self w) with
     | None => set_active (Some n) w1
     | Some _ => w1
     end).
Proof.
  unfold add_mcp_server, bind, modify, gets. simpl.
  by destruct (active_mcp_server (self w)).
Qed.

Lemma remove_mcp_server_absent (n : string) (w : World) :
  n ∉ dict_keys (registry w) → remove_mcp_server n w = (Ok false, w).
Proof.
  intros Hn%dict_contains_false.
  unfold remove_mcp_server, bind, gets. by rewrite Hn.
Qed.

Lemma remove_mcp_server_present (n : string) (w : World) :
  n ∈ dict_keys (registry w) →
  remove_mcp_server n w =
    (Ok true,
     let d := dict_remove n (registry w) in
     let w1 := set_dict (mcp_servers (self w)) d w in
     if bool_decide (active_mcp_server (self w) = Some n) then
       match d with
       | [] => set_active None w1
       | (k, _) :: _ => set_active (Some k) w1
       end
     else w1).
Proof.
  intros Hn. pose proof (dict_get_is_Some _ _ Hn) as [v Hv].
  apply dict_contains_true in Hn.
  unfold remove_mcp_server, bind, gets, pop, lift, modify, ret.
  rewrite Hn, Hv. cbn [self set_dict].
  case_bool_decide; [|done].
  pose proof (registry_set_dict w (dict_remove n (registry w))) as Hr.
  destruct (dict_remove n (registry w)) as [|[k c] d];
    rewrite Hr; simpl; [done |].
  by rewrite Hr.
Qed.

Lemma set_active_mcp_server_run (n : string) (w : World) :
  set_active_mcp_server n w =
    if dict_contains n (registry w) then (Ok true, set_active (Some n) w)
    else (Ok false, w).
Proof.
  unfold set_active_mcp_server, bind, gets, modify, ret.
  by destruct (dict_contains n (registry w)).
Qed.

Lemma init_run (nm ins : string) (arg : option loc) (kw : Config) (h : heap) :
  ∃ w, init nm ins arg kw h = Ok w ∧
       name (self w) = nm ∧ instructions (self w) = ins ∧
       config (self w) = kw ∧
       active_mcp_server (self w) =
         match registry w with [] => None | (k, _) :: _ => Some k end.
Proof.
  unfold init.
  destruct (match arg with
            | Some l => if dict_truthy (deref h l) then (l, h) else alloc_dict h
            | None => alloc_dict h
            end) as [servers h1].
  destruct (deref h1 servers) as [|[k c] d] eqn:Hd; simpl;
    eexists; (split; [reflexivity |]); unfold registry; simpl;
    by rewrite Hd.
Qed.

(** The sample states are states of the program: each is what
    construction and a few calls leave. *)
Lemma sample_states_reached :
  init "assistant" "answer" None [] ∅ = Ok no_servers ∧
  do_calls [AddServer "a" [("command", "python")]] no_servers
    = (Ok tt, one_server) ∧
  do_calls [AddServer "b" [("command", "node")]] one_server
    = (Ok tt, two_servers).
Proof. repeat split; vm_compute; reflexivity. Qed.

(** *** The active selection and the registry agree *)

Lemma keys_nonempty (k : string) (d : dict) : k ∈ dict_keys d → d ≠ [].
Proof. intros Hk ->. by apply elem_of_nil in Hk. Qed.

Lemma init_consistent (nm ins : string) (arg : option loc) (kw : Config)
    (h : heap) :
  ∃ w, init nm ins arg kw h = Ok w ∧ active_consistent w.
Proof.
  destruct (init_run nm ins arg kw h) as (w & Hw & _ & _ & _ & Ha).
  exists w. split; [done |]. unfold active_consistent. rewrite Ha.
  destruct (registry w) as [|[k c] d]; split; try done.
  intros a [= <-]. unfold dict_keys. simpl. apply elem_of_cons. by left.
Qed.

Lemma add_mcp_server_consistent (n : string) (cfg : Config) (w : World) :
  active_consistent w → active_consistent (add_mcp_server n cfg w).2.
Proof.
  intros [Hnone Hsome]. rewrite add_mcp_server_run. cbn [snd].
  pose proof (registry_set_dict w (dict_setitem n cfg (registry w))) as Hr.
  pose proof (dict_setitem_nonempty n cfg (registry w)) as Hne.
  destruct (active_mcp_server (self w)) as [a|] eqn:Ha.
  - unfold active_consistent. rewrite Hr.
    cbn [self set_dict]. rewrite Ha. split; [done |].
    intros a' [= <-]. apply dict_setitem_keys. right. by apply Hsome.
  - unfold active_consistent. rewrite registry_set_active, Hr.
    cbn [self set_active active_mcp_server]. split; [done |].
    intros a' [= <-]. apply dict_setitem_keys. by left.
Qed.

Lemma remove_mcp_server_consistent (n : string) (w : World) :
  active_consistent w → active_consistent (remove_mcp_server n w).2.
Proof.
  intros Hw. destruct (decide (n ∈ dict_keys (registry w))) as [Hn|Hn];
    [|by rewrite remove_mcp_server_absent].
  destruct Hw as [Hnone Hsome].
  rewrite remove_mcp_server_present by done. cbn [snd].
  pose proof (registry_set_dict w (dict_remove n (registry w))) as Hr.
  case_bool_decide as Ha.
  - destruct (dict_remove n (registry w)) as [|[k c] d] eqn:Hd;
      unfold active_consistent; rewrite registry_set_active, Hr;
      cbn [self set_active active_mcp_server]; split; try done.
    intros a [= <-]. unfold dict_keys. simpl. apply elem_of_cons. by left.
  - unfold active_consistent. rewrite Hr. cbn [self set_dict].
    destruct (active_mcp_server (self w)) as [a|] eqn:Ha'.
    + assert (a ∈ dict_keys (dict_remove n (registry w))) as Hin.
      { apply dict_remove_keys. split; [congruence | by apply Hsome]. }
      split; [|by intros a' [= <-]].
      split; [done |]. intros Hd. by apply keys_nonempty in Hin.
    + apply keys_nonempty in Hn. destruct Hn. by apply Hnone.
Qed.

Lemma set_active_mcp_server_consistent (n : string) (w : World) :
  active_consistent w → active_consistent (set_active_mcp_server n w).2.
Proof.
  intros Hw. rewrite set_active_mcp_server_run.
  destruct (dict_contains n (registry w)) eqn:Hn; [|done].
  apply dict_contains_true in Hn. cbn [snd]. unfold active_consistent.
  rewrite registry_set_active. cbn [self set_active active_mcp_server].
  split; [|by intros a [= <-]].
  split; [done |]. intros Hd. by apply keys_nonempty in Hn.
Qed.

Lemma do_call_consistent (c : call) (w : World) :
  active_consistent w →
  ∃ w', do_call c w = (Ok tt, w') ∧ active_consistent w'.
Proof.
  intros Hw. destruct c as [n cfg|n|n]; simpl.
  - pose proof (add_mcp_server_consistent n cfg w Hw) as H.
    rewrite add_mcp_server_run in *. eauto.
  - pose proof (remove_mcp_server_consistent n w Hw) as H.
    unfold bind, ret. destruct (decide (n ∈ dict_keys (registry w))).
    + rewrite remove_mcp_server_present in * by done. eauto.
    + rewrite remove_mcp_server_absent in * by done. eauto.
  - pose proof (set_active_mcp_server_consistent n w Hw) as H.
    unfold bind, ret. rewrite set_active_mcp_server_run in *.
    destruct (dict_contains n (registry w)); eauto.
Qed.

(** C1.  From a newly constructed agent, whatever dict (or [None]) it is
    constructed with, every sequence of [add_mcp_server],
    [remove_mcp_server] and [set_active_mcp_server] calls runs to its end
    without raising and leaves a state in which the active selection is
    [None] if and only if the registry is empty, and in which a set
    selection is a key of the registry. *)
Theorem active_consistent_after_calls (nm ins : string) (arg : option loc)
    (kw : Config) (h : heap) (cs : list call) :
  ∃ w w', init nm ins arg kw h = Ok w ∧
          do_calls cs w = (Ok tt, w') ∧
          active_consistent w'.
Proof.
  destruct (init_consistent nm ins arg kw h) as (w & Hinit & Hw).
  exists w. cut (∃ w', do_calls cs w = (Ok tt, w') ∧ active_consistent w').
  { intros (w' & ? & ?). eauto. }
  clear Hinit. revert w Hw.
  induction cs as [|c cs IH]; intros w Hw; simpl.
  - by exists w.
  - destruct (do_call_consistent c w Hw) as (w1 & Hc & Hw1).
    destruct (IH w1 Hw1) as (w' & Hcs & Hw').
    exists w'. unfold bind. by rewrite Hc.
Qed.

(** *** Adding, removing, activating *)

(** C3.  On an empty registry with no active server, [add_mcp_server]
    makes the added name the active server; when an active server is
    already set, adding any server leaves the selection as it is. *)
Theorem add_mcp_server_active (w : World) (n : string) (cfg : Config) :
  (registry w = [] → active_mcp_server (self w) = None →
     active_mcp_server (self (add_mcp_server n cfg w).2) = Some n) ∧
  (∀ a, active_mcp_server (self w) = Some a →
     active_mcp_server (self (add_mcp_server n cfg w).2) = Some a).
Proof.
  rewrite add_mcp_server_run. cbn [snd]. split.
  - intros _ Ha. by rewrite Ha.
  - intros a Ha. by rewrite Ha.
Qed.

Lemma add_mcp_server_active_witness :
  (registry no_servers = [] ∧
   active_mcp_server (self no_servers) = None ∧
   active_mcp_server (self (add_mcp_server "a" [] no_servers).2) = Some "a") ∧
  (active_mcp_server (self one_server) = Some "a" ∧
   active_mcp_server (self (add_mcp_server "b" [] one_server).2) = Some "a").
Proof.
  split.
  - split; [reflexivity |]. split; [reflexivity |].
    apply (proj1 (add_mcp_server_active no_servers "a" [])); reflexivity.
  - split; [reflexivity |].
    apply (proj2 (add_mcp_server_active one_server "b" []) "a"); reflexivity.
Defined.

(** C4.  [remove_mcp_server] returns [True] when the name is a key of the
    registry and [False] when it is not.  A key is deleted, every other
    item staying; if it was the active server, the new selection is a key
    of what remains, or [None] when nothing remains; if it was not, the
    selection stays.  A name that is no key changes nothing. *)
Theorem remove_mcp_server_spec (w : World) (n : string) :
  (n ∈ dict_keys (registry w) →
     ∃ w', remove_mcp_server n w = (Ok true, w') ∧
       (n ∉ dict_keys (registry w')) ∧
       (∀ k, k ≠ n → dict_get k (registry w') = dict_get k (registry w)) ∧
       (active_mcp_server (self w) = Some n →
          match registry w' with
          | [] => active_mcp_server (self w') = None
          | _ :: _ => ∃ a, active_mcp_server (self w') = Some a ∧
                           a ∈ dict_keys (registry w')
          end) ∧
       (active_mcp_server (self w) ≠ Some n →
          active_mcp_server (self w') = active_mcp_server (self w))) ∧
  (n ∉ dict_keys (registry w) → remove_mcp_server n w = (Ok false, w)).
Proof.
  split; [|apply remove_mcp_server_absent].
  intros Hn. rewrite remove_mcp_server_present by done.
  eexists. split; [reflexivity |]. cbn zeta.
  pose proof (registry_set_dict w (dict_remove n (registry w))) as Hr.
  assert (∀ a, registry (set_active a
            (set_dict (mcp_servers (self w)) (dict_remove n (registry w)) w))
          = dict_remove n (registry w)) as Hr'.
  { intros a. by rewrite registry_set_active. }
  assert (n ∉ dict_keys (dict_remove n (registry w))) as Hgone.
  { intros [? _]%dict_remove_keys. done. }
  assert (∀ k, k ≠ n → dict_get k (dict_remove n (registry w))
                       = dict_get k (registry w)) as Hkeep.
  { intros k Hk. rewrite dict_remove_get. by rewrite decide_False. }
  case_bool_decide as Ha.
  - destruct (dict_remove n (registry w)) as [|[k c] d] eqn:Hd;
      rewrite Hr'; (split; [done |]); (split; [done |]); split; try done.
    intros _. exists k. split; [done |].
    unfold dict_keys. simpl. apply elem_of_cons. by left.
  - rewrite Hr. split; [done |]. split; [done |]. split; done.
Qed.

Lemma remove_mcp_server_spec_witness :
  "a" ∈ dict_keys (registry two_servers) ∧
  ∃ w', remove_mcp_server "a" two_servers = (Ok true, w') ∧
        active_mcp_server (self w') = Some "b" ∧
        ("c" ∉ dict_keys (registry two_servers)) ∧
        remove_mcp_server "c" two_servers = (Ok false, two_servers).
Proof.
  assert ("a" ∈ dict_keys (registry two_servers)) as Ha.
  { apply dict_contains_true. reflexivity. }
  assert ("c" ∉ dict_keys (registry two_servers)) as Hc.
  { apply dict_contains_false. reflexivity. }
  split; [exact Ha |].
  destruct (proj1 (remove_mcp_server_spec two_servers "a") Ha)
    as (w' & Hrun & _).
  exists w'. split; [exact Hrun |]. split.
  - assert (remove_mcp_server "a" two_servers =
              (Ok true, set_active (Some "b")
                 (set_dict 0 [("b", [("command", "node")])] two_servers)))
      as Heq by reflexivity.
    rewrite Hrun in Heq. by injection Heq as ->.
  - split; [exact Hc |].
    exact (proj2 (remove_mcp_server_spec two_servers "c") Hc).
Defined.

(** C5.  [set_active_mcp_server] returns [False] and changes nothing when
    the name is no key of the registry; it returns [True] and sets the
    active selection to the name, the registry staying as it is, when the
    name is a key. *)
Theorem set_active_mcp_server_spec (w : World) (n : string) :
  (n ∉ dict_keys (registry w) →
     set_active_mcp_server n w = (Ok false, w)) ∧
  (n ∈ dict_keys (registry w) →
     ∃ w', set_active_mcp_server n w = (Ok true, w') ∧
           active_mcp_server (self w') = Some n ∧
           objects w' = objects w ∧
           mcp_servers (self w') = mcp_servers (self w) ∧
           registry w' = registry w).
Proof.
  rewrite set_active_mcp_server_run. split.
  - intros Hn%dict_contains_false. by rewrite Hn.
  - intros Hn%dict_contains_true. rewrite Hn. by eexists.
Qed.

Lemma set_active_mcp_server_spec_witness :
  (("x" ∉ dict_keys (registry two_servers)) ∧
   set_active_mcp_server "x" two_servers = (Ok false, two_servers)) ∧
  ("b" ∈ dict_keys (registry two_servers) ∧
   ∃ w', set_active_mcp_server "b" two_servers = (Ok true, w') ∧
         active_mcp_server (self w') = Some "b").
Proof.
  assert ("x" ∉ dict_keys (registry two_servers)) as Hx.
  { apply dict_contains_false. reflexivity. }
  assert ("b" ∈ dict_keys (registry two_servers)) as Hb.
  { apply dict_contains_true. reflexivity. }
  split.
  - split; [exact Hx |].
    exact (proj1 (set_active_mcp_server_spec two_servers "x") Hx).
  - split; [exact Hb |].
    destruct (proj2 (set_active_mcp_server_spec two_servers "b") Hb)
      as (w' & Hrun & Hact & _).
    exists w'. split; [exact Hrun | exact Hact].
Defined.

(** *** Dispatch: the target server *)

Lemma py_or_nonempty (n : string) (a : option string) :
  n ≠ EmptyString → py_or (Some n) a = Some n.
Proof. intros Hn. unfold py_or, truthy. by rewrite bool_decide_eq_false_2. Qed.

Lemma py_or_empty (a : option string) : py_or (Some EmptyString) a = py_or None a.
Proof. reflexivity. Qed.

(** The two dispatch methods differ in nothing but what they raise on a
    target that is registered. *)
Lemma execute_tool_run (tool : string) (input : Config)
    (sn : option string) (w : World) :
  execute_tool tool input sn w =
    (let target := py_or sn (active_mcp_server (self w)) in
     if negb (truthy target) then Raise no_server_error
     else if not_in target (registry w)
          then Raise (not_found_error (format target))
          else Raise (NotImplementedError
                        "Tool execution must be implemented by subclasses"),
     w).
Proof.
  unfold execute_tool, bind, gets, raise. cbn zeta.
  destruct (truthy (py_or sn (active_mcp_server (self w)))); [|done].
  simpl. by destruct (not_in _ (registry w)).
Qed.

Lemma get_available_tools_run (sn : option string) (w : World) :
  get_available_tools sn w =
    (let target := py_or sn (active_mcp_server (self w)) in
     if negb (truthy target) then Raise no_server_error
     else if not_in target (registry w)
          then Raise (not_found_error (format target))
          else Raise (NotImplementedError
                 "Getting available tools must be implemented by subclasses"),
     w).
Proof.
  unfold get_available_tools, bind, gets, raise. cbn zeta.
  destruct (truthy (py_or sn (active_mcp_server (self w)))); [|done].
  simpl. by destruct (not_in _ (registry w)).
Qed.

(** C2, as stated, fails: with a server active, the explicit name [''],
    which is no key of the registry, is not rejected with a [ValueError];
    the call goes on to the active server. *)
Lemma empty_explicit_name_not_rejected :
  (EmptyString ∉ dict_keys (registry one_server)) ∧
  execute_tool "search" [] (Some EmptyString) one_server =
    (Raise (NotImplementedError
              "Tool execution must be implemented by subclasses"),
     one_server) ∧
  get_available_tools (Some EmptyString) one_server =
    (Raise (NotImplementedError
              "Getting available tools must be implemented by subclasses"),
     one_server) ∧
  ¬ (∃ msg w', execute_tool "search" [] (Some EmptyString) one_server =
                 (Raise (ValueError msg), w')).
Proof.
  split; [apply dict_contains_false; reflexivity |].
  split; [reflexivity |]. split; [reflexivity |].
  intros (msg & w' & H). rewrite execute_tool_run in H. discriminate H.
Qed.

(** C2, amended.  With no explicit name and no active server, and with an
    explicit non-empty name that is no key of the registry (whatever the
    active selection), [execute_tool] and [get_available_tools] raise
    [ValueError], and they do so as their only effect: the state is left
    as it was, and the place where a subclass is to reach the server is
    not come to. *)
Theorem dispatch_rejects_unresolved_target (w : World) (tool : string)
    (input : Config) :
  (active_mcp_server (self w) = None →
     execute_tool tool input None w = (Raise no_server_error, w) ∧
     get_available_tools None w = (Raise no_server_error, w)) ∧
  (∀ sn, sn ≠ EmptyString → sn ∉ dict_keys (registry w) →
     execute_tool tool input (Some sn) w = (Raise (not_found_error sn), w) ∧
     get_available_tools (Some sn) w = (Raise (not_found_error sn), w)).
Proof.
  rewrite execute_tool_run. split.
  - intros Ha. rewrite get_available_tools_run, Ha. done.
  - intros sn Hsn Habs%dict_contains_false.
    rewrite execute_tool_run, get_available_tools_run.
    rewrite (py_or_nonempty sn _ Hsn). cbn zeta.
    unfold truthy, not_in, format. rewrite bool_decide_eq_false_2 by done.
    rewrite Habs. done.
Qed.

Lemma dispatch_rejects_unresolved_target_witness :
  (active_mcp_server (self no_servers) = None ∧
   execute_tool "search" [] None no_servers
     = (Raise no_server_error, no_servers)) ∧
  ("b" ≠ EmptyString ∧ ("b" ∉ dict_keys (registry one_server)) ∧
   execute_tool "search" [] (Some "b") one_server
     = (Raise (not_found_error "b"), one_server)).
Proof.
  assert ("b" ∉ dict_keys (registry one_server)) as Hb.
  { apply dict_contains_false. reflexivity. }
  split.
  - split; [reflexivity |].
    exact (proj1 (proj1 (dispatch_rejects_unresolved_target
                           no_servers "search" []) eq_refl)).
  - split; [discriminate |]. split; [exact Hb |].
    refine (proj1 (proj2 (dispatch_rejects_unresolved_target
                            one_server "search" []) "b" _ Hb)).
    discriminate.
Defined.

(** C10.  The explicit name [''] is taken as no name: both dispatch
    methods do with it exactly what they do with [server_name] left out,
    and so raise the no-server [ValueError] when no server is active. *)
Theorem empty_server_name_is_omitted (w : World) (tool : string)
    (input : Config) :
  execute_tool tool input (Some EmptyString) w = execute_tool tool input None w ∧
  get_available_tools (Some EmptyString) w = get_available_tools None w ∧
  (active_mcp_server (self w) = None →
     execute_tool tool input (Some EmptyString) w = (Raise no_server_error, w) ∧
     get_available_tools (Some EmptyString) w = (Raise no_server_error, w)).
Proof.
  rewrite !execute_tool_run, !get_available_tools_run, !py_or_empty.
  split; [done |]. split; [done |]. intros Ha. by rewrite Ha.
Qed.

Lemma empty_server_name_is_omitted_witness :
  active_mcp_server (self no_servers) = None ∧
  execute_tool "search" [] (Some EmptyString) no_servers
    = (Raise no_server_error, no_servers) ∧
  execute_tool "search" [] (Some EmptyString) one_server
    = execute_tool "search" [] None one_server.
Proof.
  split; [reflexivity |]. split.
  - exact (proj1 (proj2 (proj2 (empty_server_name_is_omitted
                                  no_servers "search" [])) eq_refl)).
  - exact (proj1 (empty_server_name_is_omitted one_server "search" [])).
Defined.

(** *** The registry handed out *)

(** C6, as stated, fails: what [get_mcp_servers] returns is the agent's
    own dict, and clearing it empties the agent's registry (while the
    active selection still names [a]). *)
Lemma get_mcp_servers_result_is_shared :
  ∃ l w', get_mcp_servers one_server = (Ok l, one_server) ∧
          mutate l Clear one_server = (Ok tt, w') ∧
          registry one_server ≠ [] ∧
          registry w' = [] ∧
          active_mcp_server (self w') = Some "a".
Proof.
  exists 0, (set_dict 0 [] one_server).
  split; [reflexivity |]. split; [reflexivity |].
  split; [discriminate |]. split; reflexivity.
Qed.

(** C6, amended.  [get_mcp_servers] returns the full registry as a live
    reference: the call changes nothing and gives the reference held in
    [self.mcp_servers], so whatever the caller then does to the dict it
    was given is done to the agent's registry; the attributes of the
    agent, the active selection among them, are not touched by it. *)
Theorem get_mcp_servers_live_reference (w : World) (m : mutation) :
  ∃ l, get_mcp_servers w = (Ok l, w) ∧
       deref (objects w) l = registry w ∧
       ∃ w', mutate l m w = (Ok tt, w') ∧
             registry w' = mutated m (registry w) ∧
             self w' = self w.
Proof.
  exists (mcp_servers (self w)). split; [reflexivity |].
  split; [reflexivity |]. eexists. split; [reflexivity |].
  split; [apply registry_set_dict | reflexivity].
Qed.

End AgentProps.

(** ** The client connection *)

Module ClientProps.
Import Client.

(** A client just constructed, no subprocess running. *)
Lemma init_nothing_acquired (srv : Server) :
  nothing_acquired (mkWorld init [] srv).
Proof. by repeat split. Qed.

Lemma load_global_server_params :
  load_global "server_params" = Raise (NameError "server_params").
Proof. reflexivity. Qed.

(** C7.  A path that ends in neither [.py] nor [.js] makes
    [connect_to_local_mcp] raise [ValueError] with the state as it was:
    nothing is put on the exit stack, no subprocess is started, the
    session stays unset. *)
Theorem connect_rejects_unsupported (w : World) (path : string) :
  endswith path ".py" = false →
  endswith path ".js" = false →
  connect_to_local_mcp path w =
    (Raise (ValueError "Server script must be a .py or .js file"), w) ∧
  (nothing_acquired w → nothing_acquired (connect_to_local_mcp path w).2).
Proof.
  intros Hpy Hjs. unfold connect_to_local_mcp. rewrite Hpy, Hjs. by split.
Qed.

Lemma connect_rejects_unsupported_witness :
  endswith "server.txt" ".py" = false ∧
  endswith "server.txt" ".js" = false ∧
  connect_to_local_mcp "server.txt" (mkWorld init [] (mkServer true true)) =
    (Raise (ValueError "Server script must be a .py or .js file"),
     mkWorld init [] (mkServer true true)).
Proof.
  split; [reflexivity |]. split; [reflexivity |].
  apply (connect_rejects_unsupported
           (mkWorld init [] (mkServer true true)) "server.txt");
    reflexivity.
Defined.

(** C9.  A path that ends in [.py] or [.js] makes [connect_to_local_mcp]
    raise [NameError] for [server_params] with the state as it was, so
    before anything is entered on the exit stack; hence on no path at all
    does [connect_to_local_mcp] return. *)
Theorem connect_raises_NameError (w : World) (path : string) :
  (endswith path ".py" = true ∨ endswith path ".js" = true →
     connect_to_local_mcp path w = (Raise (NameError "server_params"), w)) ∧
  is_raise (connect_to_local_mcp path w).1 = true.
Proof.
  assert (endswith path ".py" || endswith path ".js" = true →
          connect_to_local_mcp path w
            = (Raise (NameError "server_params"), w)) as Hok.
  { intros H. unfold connect_to_local_mcp. by rewrite H. }
  split.
  - intros H. apply Hok. apply orb_true_iff. exact H.
  - destruct (endswith path ".py" || endswith path ".js") eqn:H.
    + by rewrite Hok.
    + unfold connect_to_local_mcp. by rewrite H.
Qed.

Lemma connect_raises_NameError_witness :
  endswith "server.py" ".py" = true ∧
  connect_to_local_mcp "server.py" (mkWorld init [] (mkServer true true)) =
    (Raise (NameError "server_params"),
     mkWorld init [] (mkServer true true)) ∧
  endswith "index.js" ".js" = true ∧
  connect_to_local_mcp "index.js" (mkWorld init [] (mkServer true true)) =
    (Raise (NameError "server_params"),
     mkWorld init [] (mkServer true true)).
Proof.
  split; [reflexivity |]. split.
  - apply (proj1 (connect_raises_NameError
                    (mkWorld init [] (mkServer true true)) "server.py")).
    left. reflexivity.
  - split; [reflexivity |].
    apply (proj1 (connect_raises_NameError
                    (mkWorld init [] (mkServer true true)) "index.js")).
    right. reflexivity.
Defined.

(** Lines 27-31 and the handshake.  Against a server whose transport
    opens and whose [initialize] fails, [connect_to_local_mcp "server.py"]
    raises [NameError] with nothing acquired, so the handshake is never
    come to.  Lines 27-31 taken alone, from a bound argument that no call
    of the method supplies, end in the error of [initialize] with the
    transport and the session still on the exit stack. *)
Theorem connect_handshake_failure (p : StdioServerParameters) :
  let w := mkWorld init [] (mkServer true false) in
  connect_to_local_mcp "server.py" w = (Raise (NameError "server_params"), w) ∧
  ∃ w', open_session (VParams p) w = (Raise (LibraryError "initialize"), w') ∧
        exit_stack (self w') =
          [SessionContext (mkSession ReadStream WriteStream);
           StdioTransport p] ∧
        processes w' = [p] ∧
        ¬ nothing_acquired w'.
Proof.
  split; [reflexivity |]. eexists. split; [reflexivity |].
  split; [reflexivity |]. split; [reflexivity |].
  intros (H & _). discriminate H.
Qed.

End ClientProps.

(** ** More on dicts: items, order, round trips *)

Lemma dict_setitem_get (k k' : string) (v : Config) (d : dict) :
  dict_get k' (dict_setitem k v d) =
    if decide (k' = k) then Some v else dict_get k' d.
Proof.
  induction d as [|[k0 v0] d IH]; simpl.
  - destruct (decide (k = k')) as [->|Hne].
    + by rewrite decide_True.
    + rewrite decide_False; [done | congruence].
  - destruct (decide (k0 = k)) as [->|Hne]; simpl.
    + destruct (decide (k = k')) as [->|Hne'].
      * by rewrite decide_True.
      * rewrite decide_False; [done | congruence].
    + destruct (decide (k0 = k')) as [->|Hne'].
      * by rewrite decide_False.
      * exact IH.
Qed.

Lemma dict_setitem_present (k : string) (v : Config) (d : dict) :
  k ∈ dict_keys d → dict_keys (dict_setitem k v d) = dict_keys d.
Proof.
  unfold dict_keys. induction d as [|[k0 v0] d IH]; simpl.
  - by intros ?%elem_of_nil.
  - intros Hin. destruct (decide (k0 = k)) as [->|Hne]; simpl; [done |].
    f_equal. apply IH. apply elem_of_cons in Hin as [->|Hin]; done.
Qed.

Lemma dict_setitem_absent (k : string) (v : Config) (d : dict) :
  k ∉ dict_keys d → dict_setitem k v d = (d ++ [(k, v)])%list.
Proof.
  unfold dict_keys. induction d as [|[k0 v0] d IH]; simpl; [done |].
  intros [Hne Hnin]%not_elem_of_cons.
  rewrite decide_False by congruence. f_equal. by apply IH.
Qed.

Lemma dict_setitem_twice (k : string) (v : Config) (d : dict) :
  dict_setitem k v (dict_setitem k v d) = dict_setitem k v d.
Proof.
  induction d as [|[k0 v0] d IH]; simpl.
  - by rewrite decide_True.
  - destruct (decide (k0 = k)) as [->|Hne]; simpl.
    + by rewrite decide_True.
    + rewrite decide_False by done. by rewrite IH.
Qed.

Lemma dict_remove_absent (k : string) (d : dict) :
  k ∉ dict_keys d → dict_remove k d = d.
Proof.
  unfold dict_keys, dict_remove. induction d as [|[k0 v0] d IH]; simpl; [done |].
  intros [Hne Hnin]%not_elem_of_cons.
  rewrite (filter_cons_True (λ kv : string * Config, kv.1 ≠ k)) by (simpl; congruence).
  f_equal. by apply IH.
Qed.

Lemma dict_remove_setitem (k : string) (v : Config) (d : dict) :
  k ∉ dict_keys d → dict_remove k (dict_setitem k v d) = d.
Proof.
  unfold dict_keys, dict_remove. induction d as [|[k0 v0] d IH]; simpl.
  - intros _.
    by rewrite (filter_cons_False (λ kv : string * Config, kv.1 ≠ k))
      by (simpl; tauto).
  - intros [Hne Hnin]%not_elem_of_cons.
    rewrite decide_False by congruence.
    rewrite (filter_cons_True (λ kv : string * Config, kv.1 ≠ k))
      by (simpl; congruence).
    f_equal. by apply IH.
Qed.

Lemma dict_remove_keys_filter (k : string) (d : dict) :
  dict_keys (dict_remove k d) = filter (λ k', k' ≠ k) (dict_keys d).
Proof.
  unfold dict_keys, dict_remove. induction d as [|[k0 v0] d IH]; [done |].
  rewrite fmap_cons.
  rewrite (filter_cons (λ kv : string * Config, kv.1 ≠ k)).
  rewrite (filter_cons (λ k' : string, k' ≠ k)). cbn [fst].
  destruct (decide (k0 ≠ k)); [rewrite fmap_cons; cbn [fst]; f_equal |];
    exact IH.
Qed.

(** ** More on the agent registry *)

Module AgentMore.
Import Agent AgentProps.

Lemma add_mcp_server_registry (n : string) (cfg : Config) (w : World) :
  registry (add_mcp_server n cfg w).2 = dict_setitem n cfg (registry w).
Proof.
  rewrite add_mcp_server_run. cbn [snd].
  destruct (active_mcp_server (self w)); [|rewrite registry_set_active];
    apply registry_set_dict.
Qed.

(** X1.  After [add_mcp_server(n, cfg)] the registry holds [cfg] under
    [n], whether [n] was there or not, and holds under every other name
    what it held before. *)
Theorem add_mcp_server_lookup (w : World) (n k : string) (cfg : Config) :
  dict_get k (registry (add_mcp_server n cfg w).2) =
    if decide (k = n) then Some cfg else dict_get k (registry w).
Proof. rewrite add_mcp_server_registry. apply dict_setitem_get. Qed.

(** X2.  [add_mcp_server] keeps the order of the names: a name already
    registered stays where it is, a new name goes last. *)
Theorem add_mcp_server_order (w : World) (n : string) (cfg : Config) :
  dict_keys (registry (add_mcp_server n cfg w).2) =
    if dict_contains n (registry w) then dict_keys (registry w)
    else (dict_keys (registry w) ++ [n])%list.
Proof.
  rewrite add_mcp_server_registry.
  destruct (dict_contains n (registry w)) eqn:Hn.
  - apply dict_setitem_present. by apply dict_contains_true.
  - apply dict_contains_false in Hn. rewrite dict_setitem_absent by done.
    unfold dict_keys. by rewrite fmap_app.
Qed.

(** X3.  [add_mcp_server] is idempotent: the same call made again leaves
    the whole state, heap and attributes, as the first call left it. *)
Theorem add_mcp_server_idempotent (w : World) (n : string) (cfg : Config) :
  add_mcp_server n cfg (add_mcp_server n cfg w).2 = add_mcp_server n cfg w.
Proof.
  rewrite (add_mcp_server_run n cfg (add_mcp_server n cfg w).2).
  rewrite add_mcp_server_registry.
  rewrite add_mcp_server_run. cbn [snd]. f_equal.
  destruct w as [h [nm ins l a kw]]. unfold set_dict, set_active. simpl.
  rewrite dict_setitem_twice.
  destruct a; simpl; by rewrite insert_insert_eq.
Qed.

(** X4.  Adding a name that is not registered and removing it again gives
    back the registry and the attributes as they were, the active selection
    among them, in any state in which selection and registry agree. *)
Theorem add_then_remove_restores (w : World) (n : string) (cfg : Config) :
  active_consistent w →
  n ∉ dict_keys (registry w) →
  ∃ w', remove_mcp_server n (add_mcp_server n cfg w).2 = (Ok true, w') ∧
        registry w' = registry w ∧
        self w' = self w.
Proof.
  intros [Hnone Hsome] Hn.
  assert (n ∈ dict_keys (registry (add_mcp_server n cfg w).2)) as Hin.
  { rewrite add_mcp_server_registry. apply dict_setitem_keys. by left. }
  rewrite remove_mcp_server_present by done. eexists. split; [reflexivity |].
  cbn zeta. rewrite add_mcp_server_registry, dict_remove_setitem by done.
  rewrite add_mcp_server_run. cbn [snd]. cbn zeta.
  destruct w as [h [nm ins l a kw]]. unfold registry in *. simpl in *.
  destruct a as [a|]; simpl.
  - specialize (Hsome a eq_refl).
    rewrite bool_decide_eq_false_2 by (intros [= ->]; done).
    unfold registry. simpl. by rewrite deref_insert.
  - rewrite bool_decide_eq_true_2 by done.
    rewrite (proj1 Hnone eq_refl). unfold registry. simpl.
    by rewrite deref_insert.
Qed.

Lemma add_then_remove_restores_witness :
  active_consistent two_servers ∧
  ("c" ∉ dict_keys (registry two_servers)) ∧
  ∃ w', remove_mcp_server "c" (add_mcp_server "c" [] two_servers).2
          = (Ok true, w') ∧
        registry w' = registry two_servers ∧
        self w' = self two_servers.
Proof.
  assert (active_consistent two_servers) as Hc.
  { split; [split; discriminate |].
    intros a [= <-]. apply dict_contains_true. reflexivity. }
  assert ("c" ∉ dict_keys (registry two_servers)) as Hn.
  { apply dict_contains_false. reflexivity. }
  split; [exact Hc |]. split; [exact Hn |].
  exact (add_then_remove_restores two_servers "c" [] Hc Hn).
Defined.

(** X5.  When the active server is removed, the new active server is the
    first of the remaining names in insertion order, and [None] if none
    remains. *)
Theorem remove_active_successor (w : World) (n : string) :
  n ∈ dict_keys (registry w) →
  active_mcp_server (self w) = Some n →
  active_mcp_server (self (remove_mcp_server n w).2) =
    head (filter (λ k, k ≠ n) (dict_keys (registry w))).
Proof.
  intros Hn Ha. rewrite remove_mcp_server_present by done. cbn [snd].
  cbn zeta. rewrite bool_decide_eq_true_2 by done.
  rewrite <- dict_remove_keys_filter.
  by destruct (dict_remove n (registry w)) as [|[k c] d].
Qed.

Lemma remove_active_successor_witness :
  "a" ∈ dict_keys (registry two_servers) ∧
  active_mcp_server (self two_servers) = Some "a" ∧
  active_mcp_server (self (remove_mcp_server "a" two_servers).2) = Some "b".
Proof.
  assert ("a" ∈ dict_keys (registry two_servers)) as Ha.
  { apply dict_contains_true. reflexivity. }
  split; [exact Ha |]. split; [reflexivity |].
  exact (remove_active_successor two_servers "a" Ha eq_refl).
Defined.

(** *** Dispatch, further *)

(** X6.  A server registered under the empty name can be the active one,
    yet it is never the target: with it active, a call that names no
    server raises the no-server [ValueError], as if no server were
    active. *)
Theorem empty_named_server_not_dispatched (w : World) (tool : string)
    (input : Config) :
  active_mcp_server (self w) = Some EmptyString →
  execute_tool tool input None w = (Raise no_server_error, w) ∧
  get_available_tools None w = (Raise no_server_error, w).
Proof.
  intros Ha. rewrite execute_tool_run, get_available_tools_run, Ha. done.
Qed.

Lemma empty_named_server_not_dispatched_witness :
  let w := (add_mcp_server EmptyString [] no_servers).2 in
  active_mcp_server (self w) = Some EmptyString ∧
  EmptyString ∈ dict_keys (registry w) ∧
  execute_tool "search" [] None w = (Raise no_server_error, w).
Proof.
  cbn zeta. split; [reflexivity |]. split.
  - apply dict_contains_true. reflexivity.
  - exact (proj1 (empty_named_server_not_dispatched
                    (add_mcp_server EmptyString [] no_servers).2
                    "search" [] eq_refl)).
Defined.

(** X7.  [execute_tool] and [get_available_tools] never return and never
    change the state: whatever the arguments, each raises, and what it
    raises is [NotImplementedError] exactly when the target, the explicit
    name or else the active server, is a non-empty name of the registry,
    and a [ValueError] otherwise. *)
Theorem dispatch_never_returns (w : World) (tool : string) (input : Config)
    (sn : option string) :
  let registered :=
    ∃ t, py_or sn (active_mcp_server (self w)) = Some t ∧
         t ≠ EmptyString ∧ t ∈ dict_keys (registry w) in
  (registered →
     execute_tool tool input sn w =
       (Raise (NotImplementedError
                 "Tool execution must be implemented by subclasses"), w) ∧
     get_available_tools sn w =
       (Raise (NotImplementedError
                 "Getting available tools must be implemented by subclasses"),
        w)) ∧
  (¬ registered →
     ∃ msg, execute_tool tool input sn w = (Raise (ValueError msg), w) ∧
            get_available_tools sn w = (Raise (ValueError msg), w)).
Proof.
  cbn zeta. rewrite execute_tool_run, get_available_tools_run. cbn zeta.
  destruct (py_or sn (active_mcp_server (self w))) as [t|] eqn:Ht;
    unfold truthy, not_in, format; split.
  - intros (t' & [= <-] & Hne & Hin).
    rewrite bool_decide_eq_false_2 by done. simpl.
    apply dict_contains_true in Hin. by rewrite Hin.
  - intros Hno. case_bool_decide as He; simpl; [by eexists |].
    destruct (dict_contains t (registry w)) eqn:Hin; simpl; [|by eexists].
    destruct Hno. exists t. apply dict_contains_true in Hin. done.
  - intros (t' & [=] & _).
  - intros _. by eexists.
Qed.

Lemma dispatch_never_returns_witness :
  (∃ t, py_or None (active_mcp_server (self one_server)) = Some t ∧
        t ≠ EmptyString ∧ t ∈ dict_keys (registry one_server)) ∧
  execute_tool "search" [] None one_server =
    (Raise (NotImplementedError
              "Tool execution must be implemented by subclasses"),
     one_server) ∧
  ¬ (∃ t, py_or (Some "b") (active_mcp_server (self one_server)) = Some t ∧
          t ≠ EmptyString ∧ t ∈ dict_keys (registry one_server)) ∧
  ∃ msg, execute_tool "search" [] (Some "b") one_server
           = (Raise (ValueError msg), one_server).
Proof.
  assert (∃ t, py_or None (active_mcp_server (self one_server)) = Some t ∧
               t ≠ EmptyString ∧ t ∈ dict_keys (registry one_server)) as Hyes.
  { exists "a". split; [reflexivity |]. split; [discriminate |].
    apply dict_contains_true. reflexivity. }
  assert (¬ ∃ t, py_or (Some "b") (active_mcp_server (self one_server)) = Some t ∧
               t ≠ EmptyString ∧ t ∈ dict_keys (registry one_server)) as Hno.
  { intros (t & [= <-] & _ & Hin). apply dict_contains_true in Hin.
    discriminate Hin. }
  split; [exact Hyes |]. split.
  - exact (proj1 (proj1 (dispatch_never_returns one_server "search" [] None)
                    Hyes)).
  - split; [exact Hno |].
    destruct (proj2 (dispatch_never_returns one_server "search" [] (Some "b"))
                Hno) as (msg & Hrun & _).
    exists msg. exact Hrun.
Defined.

(** *** What the registry methods leave alone *)

Lemma do_call_frame (c : call) (w : World) :
  ∃ w', do_call c w = (Ok tt, w') ∧
        name (self w') = name (self w) ∧
        instructions (self w') = instructions (self w) ∧
        config (self w') = config (self w) ∧
        mcp_servers (self w') = mcp_servers (self w) ∧
        ∀ l, l ≠ mcp_servers (self w) → objects w' !! l = objects w !! l.
Proof.
  destruct c as [n cfg|n|n]; simpl.
  - rewrite add_mcp_server_run. eexists. split; [reflexivity |]. cbn zeta.
    destruct (active_mcp_server (self w)); simpl;
      repeat (split; [done |]); intros l Hl; by rewrite lookup_insert_ne.
  - unfold bind, ret. destruct (decide (n ∈ dict_keys (registry w))) as [Hn|Hn].
    + rewrite remove_mcp_server_present by done. eexists.
      split; [reflexivity |]. cbn zeta.
      case_bool_decide; [destruct (dict_remove n (registry w)) as [|[k c] d] |];
        simpl; repeat (split; [done |]); intros l Hl;
        by rewrite lookup_insert_ne.
    + rewrite remove_mcp_server_absent by done. by eexists.
  - unfold bind, ret. rewrite set_active_mcp_server_run.
    destruct (dict_contains n (registry w)); by eexists.
Qed.

Lemma do_calls_frame (cs : list call) (w : World) :
  ∃ w', do_calls cs w = (Ok tt, w') ∧
        name (self w') = name (self w) ∧
        instructions (self w') = instructions (self w) ∧
        config (self w') = config (self w) ∧
        mcp_servers (self w') = mcp_servers (self w) ∧
        ∀ l, l ≠ mcp_servers (self w) → objects w' !! l = objects w !! l.
Proof.
  revert w. induction cs as [|c cs IH]; intros w; simpl.
  - by exists w.
  - destruct (do_call_frame c w) as (w1 & Hc & Hn1 & Hi1 & Hk1 & Hm1 & Hf1).
    destruct (IH w1) as (w' & Hcs & Hn & Hi & Hk & Hm & Hf).
    exists w'. unfold bind. rewrite Hc. split; [exact Hcs |].
    rewrite Hn, Hi, Hk, Hm. repeat (split; [done |]).
    intros l Hl. rewrite Hf by congruence. by apply Hf1.
Qed.

(** X8.  Whatever sequence of [add_mcp_server], [remove_mcp_server] and
    [set_active_mcp_server] calls is made, in any state, every call
    returns, the agent's name, instructions, keyword bag and the dict
    object it refers to stay the same, and no dict other than the agent's
    own is touched. *)
Theorem registry_calls_frame (cs : list call) (w : World) :
  ∃ w', do_calls cs w = (Ok tt, w') ∧
        name (self w') = name (self w) ∧
        instructions (self w') = instructions (self w) ∧
        config (self w') = config (self w) ∧
        mcp_servers (self w') = mcp_servers (self w) ∧
        ∀ l, l ≠ mcp_servers (self w) → objects w' !! l = objects w !! l.
Proof. apply do_calls_frame. Qed.

Lemma registry_calls_frame_witness :
  let h : heap := {[ 0 := [("a", [])]; 1 := [("x", [])] ]} in
  let w := mkWorld h (mkAgent "assistant" "answer" 0 (Some "a") []) in
  ∃ w', do_calls [AddServer "b" []; RemoveServer "a"] w = (Ok tt, w') ∧
        1 ≠ mcp_servers (self w) ∧
        objects w' !! 1 = Some [("x", [])].
Proof.
  cbn zeta.
  destruct (registry_calls_frame [AddServer "b" []; RemoveServer "a"]
              (mkWorld {[ 0 := [("a", [])]; 1 := [("x", [])] ]}
                       (mkAgent "assistant" "answer" 0 (Some "a") [])))
    as (w' & Hrun & _ & _ & _ & _ & Hf).
  exists w'. split; [exact Hrun |]. split; [discriminate |].
  rewrite Hf by discriminate. reflexivity.
Defined.

(** *** Construction and the caller's dict *)

(** X9.  An agent constructed with a non-empty dict keeps that very dict:
    no new object is made, the first name of the dict is the active server,
    and what the agent adds shows through the caller's reference. *)
Theorem init_shares_nonempty_dict (nm ins : string) (kw : Config) (h : heap)
    (l : loc) :
  deref h l ≠ [] →
  ∃ w, init nm ins (Some l) kw h = Ok w ∧
       objects w = h ∧
       mcp_servers (self w) = l ∧
       active_mcp_server (self w) = head (dict_keys (deref h l)) ∧
       ∀ n cfg, deref (objects (add_mcp_server n cfg w).2) l
                = dict_setitem n cfg (deref h l).
Proof.
  intros Hne. unfold init.
  destruct (deref h l) as [|[k c] d] eqn:Hd; [done |]. simpl.
  rewrite Hd. simpl. eexists. split; [reflexivity |].
  repeat (split; [done |]). intros n cfg.
  rewrite add_mcp_server_run. unfold registry. simpl.
  by rewrite deref_insert, Hd.
Qed.

Lemma init_shares_nonempty_dict_witness :
  let h : heap := {[ 0 := [("a", [])] ]} in
  deref h 0 ≠ [] ∧
  ∃ w, init "assistant" "answer" (Some 0) [] h = Ok w ∧
       mcp_servers (self w) = 0 ∧
       active_mcp_server (self w) = Some "a".
Proof.
  cbn zeta.
  assert (deref ({[ 0 := [("a", [])] ]} : heap) 0 ≠ []) as Hne by discriminate.
  split; [exact Hne |].
  destruct (init_shares_nonempty_dict "assistant" "answer" []
              {[ 0 := [("a", [])] ]} 0 Hne) as (w & Hw & _ & Hl & Ha & _).
  exists w. split; [exact Hw |]. split; [exact Hl | exact Ha].
Defined.

(** X10.  An agent constructed with an empty dict does not keep it: it
    refers to a new dict object, starts with no active server, and
    whatever calls follow, the caller's dict stays empty. *)
Theorem init_leaves_empty_dict (nm ins : string) (kw : Config) (h : heap)
    (l : loc) (cs : list call) :
  h !! l = Some [] →
  ∃ w, init nm ins (Some l) kw h = Ok w ∧
       mcp_servers (self w) ≠ l ∧
       registry w = [] ∧
       active_mcp_server (self w) = None ∧
       objects (do_calls cs w).2 !! l = Some [].
Proof.
  intros Hl. unfold init, deref at 1. rewrite Hl. simpl.
  rewrite deref_insert. simpl. eexists. split; [reflexivity |].
  assert (fresh (dom h) ≠ l) as Hfresh.
  { intros Heq. apply (is_fresh (dom h)). rewrite Heq.
    apply elem_of_dom. by eexists. }
  split; [exact Hfresh |].
  split; [unfold registry; simpl; apply deref_insert |].
  split; [done |].
  match goal with |- objects (do_calls cs ?w0).2 !! l = _ =>
    destruct (do_calls_frame cs w0) as (w' & Hrun & _ & _ & _ & _ & Hf)
  end.
  rewrite Hrun. cbn [snd]. rewrite Hf by (simpl; congruence).
  simpl. by rewrite lookup_insert_ne.
Qed.

Lemma init_leaves_empty_dict_witness :
  let h : heap := {[ 0 := [] ]} in
  h !! 0 = Some [] ∧
  ∃ w, init "assistant" "answer" (Some 0) [] h = Ok w ∧
       mcp_servers (self w) ≠ 0 ∧
       objects (do_calls [AddServer "a" []] w).2 !! 0 = Some [].
Proof.
  cbn zeta.
  assert (({[ 0 := [] ]} : heap) !! 0 = Some []) as Hl by reflexivity.
  split; [exact Hl |].
  destruct (init_leaves_empty_dict "assistant" "answer" [] {[ 0 := [] ]} 0
              [AddServer "a" []] Hl) as (w & Hw & Hne & _ & _ & Hkeep).
  exists w. split; [exact Hw |]. split; [exact Hne | exact Hkeep].
Defined.

(** *** The report of [get_agent_info] *)

Lemma do_calls_consistent (cs : list call) (w : World) :
  active_consistent w →
  ∃ w', do_calls cs w = (Ok tt, w') ∧ active_consistent w'.
Proof.
  revert w. induction cs as [|c cs IH]; intros w Hw; simpl.
  - by exists w.
  - destruct (do_call_consistent c w Hw) as (w1 & Hc & Hw1).
    destruct (IH w1 Hw1) as (w' & Hcs & Hw').
    exists w'. unfold bind. by rewrite Hc.
Qed.

Lemma dict_keys_nil (d : dict) : dict_keys d = [] ↔ d = [].
Proof. unfold dict_keys. by destruct d. Qed.

(** X11.  After construction and any calls of the registry methods,
    [get_agent_info] changes nothing and reports the name the agent was
    constructed with, and an active server that is [None] exactly when the
    reported list of servers is empty and is otherwise one of the list. *)
Theorem get_agent_info_after_calls (nm ins : string) (arg : option loc)
    (kw : Config) (h : heap) (cs : list call) (cls : string) :
  ∃ w w' info,
    init nm ins arg kw h = Ok w ∧
    do_calls cs w = (Ok tt, w') ∧
    get_agent_info cls w' = (Ok info, w') ∧
    info_name info = nm ∧
    (info_active_mcp_server info = None ↔ info_mcp_servers info = []) ∧
    (∀ a, info_active_mcp_server info = Some a → a ∈ info_mcp_servers info).
Proof.
  destruct (init_run nm ins arg kw h) as (w & Hinit & Hnm & _).
  destruct (init_consistent nm ins arg kw h) as (w0 & Hinit0 & Hw).
  rewrite Hinit in Hinit0. injection Hinit0 as <-.
  destruct (do_calls_consistent cs w Hw) as (w' & Hrun & [Hnone Hsome]).
  destruct (do_calls_frame cs w) as (w1 & Hrun1 & Hname & _).
  rewrite Hrun in Hrun1. injection Hrun1 as <-.
  exists w, w'. eexists. split; [exact Hinit |]. split; [exact Hrun |].
  split; [reflexivity |]. simpl. split; [congruence |].
  split; [by rewrite dict_keys_nil | exact Hsome].
Qed.

Lemma do_call_wf (c : call) (w : World) :
  dict_wf (registry w) → dict_wf (registry (do_call c w).2).
Proof.
  intros Hw. destruct c as [n cfg|n|n]; simpl.
  - rewrite add_mcp_server_registry. by apply dict_setitem_wf.
  - unfold bind, ret. destruct (decide (n ∈ dict_keys (registry w))) as [Hn|Hn].
    + rewrite remove_mcp_server_present by done. cbn [snd]. cbn zeta.
      pose proof (registry_set_dict w (dict_remove n (registry w))) as Hr.
      assert (dict_wf (dict_remove n (registry w))) as Hwf
        by by apply dict_remove_wf.
      case_bool_decide; [|by rewrite Hr].
      destruct (dict_remove n (registry w)) as [|[k c] d];
        by rewrite registry_set_active, Hr.
    + by rewrite remove_mcp_server_absent.
  - unfold bind, ret. rewrite set_active_mcp_server_run.
    by destruct (dict_contains n (registry w)).
Qed.

Lemma init_wf (nm ins : string) (arg : option loc) (kw : Config) (h : heap) :
  (∀ l, arg = Some l → dict_wf (deref h l)) →
  ∃ w, init nm ins arg kw h = Ok w ∧ dict_wf (registry w).
Proof.
  intros Hwf. destruct (init_run nm ins arg kw h) as (w & Hinit & _).
  exists w. split; [exact Hinit |]. revert Hinit. unfold init.
  assert (∀ h0, dict_wf (deref (alloc_dict h0).2 (alloc_dict h0).1)) as Hnew.
  { intros h0. unfold alloc_dict. simpl. rewrite deref_insert. apply NoDup_nil_2. }
  assert (∀ servers h1, dict_wf (deref h1 servers) →
            match (if dict_truthy (deref h1 servers)
                   then match dict_next_iter (deref h1 servers) with
                        | Ok k => Ok (Some k)
                        | Raise e => Raise e
                        end
                   else Ok None) with
            | Ok a => Ok (mkWorld h1 (mkAgent nm ins servers a kw))
            | Raise e => Raise e
            end = Ok w → dict_wf (registry w)) as Hstep.
  { intros servers h1 Hd.
    destruct (deref h1 servers) as [|[k c] d] eqn:Heq; simpl;
      intros [= <-]; unfold registry; simpl; by rewrite Heq. }
  destruct arg as [l|].
  - destruct (dict_truthy (deref h l)).
    + apply Hstep. by apply Hwf.
    + specialize (Hnew h). destruct (alloc_dict h) as [servers h1].
      by apply Hstep.
  - specialize (Hnew h). destruct (alloc_dict h) as [servers h1].
    by apply Hstep.
Qed.

(** X12.  If the dict an agent is constructed with holds each name once,
    then after any calls of the registry methods the list of servers that
    [get_agent_info] reports holds no name twice. *)
Theorem reported_servers_distinct (nm ins : string) (arg : option loc)
    (kw : Config) (h : heap) (cs : list call) (cls : string) :
  (∀ l, arg = Some l → dict_wf (deref h l)) →
  ∃ w w' info,
    init nm ins arg kw h = Ok w ∧
    do_calls cs w = (Ok tt, w') ∧
    get_agent_info cls w' = (Ok info, w') ∧
    NoDup (info_mcp_servers info).
Proof.
  intros Hwf. destruct (init_wf nm ins arg kw h Hwf) as (w & Hinit & Hw).
  exists w. cut (∃ w', do_calls cs w = (Ok tt, w') ∧ dict_wf (registry w')).
  { intros (w' & Hrun & Hw'). exists w'. eexists.
    split; [exact Hinit |]. split; [exact Hrun |]. split; [reflexivity |].
    exact Hw'. }
  clear Hinit. revert w Hw. induction cs as [|c cs IH]; intros w Hw; simpl.
  - by exists w.
  - destruct (do_call_frame c w) as (w1 & Hc & _).
    pose proof (do_call_wf c w Hw) as Hw1. rewrite Hc in Hw1.
    destruct (IH w1 Hw1) as (w' & Hcs & Hw').
    exists w'. unfold bind. by rewrite Hc.
Qed.

Lemma reported_servers_distinct_witness :
  let h : heap := {[ 0 := [("a", [])] ]} in
  (∀ l, Some 0 = Some l → dict_wf (deref h l)) ∧
  ∃ w w' info,
    init "assistant" "answer" (Some 0) [] h = Ok w ∧
    do_calls [AddServer "a" []; AddServer "b" []] w = (Ok tt, w') ∧
    get_agent_info "AzureOpenAIAgent" w' = (Ok info, w') ∧
    NoDup (info_mcp_servers info).
Proof.
  cbn zeta.
  assert (∀ l, Some 0 = Some l →
               dict_wf (deref ({[ 0 := [("a", [])] ]} : heap) l)) as Hwf.
  { intros l [= <-]. apply NoDup_singleton. }
  split; [exact Hwf |].
  exact (reported_servers_distinct "assistant" "answer" (Some 0) []
           {[ 0 := [("a", [])] ]} [AddServer "a" []; AddServer "b" []]
           "AzureOpenAIAgent" Hwf).
Defined.

End AgentMore.

(** ** More on the client connection *)

Module ClientMore.
Import Client.

(** X13.  Which error [connect_to_local_mcp] raises is decided by the path
    alone, as a string: [NameError] when it is some string followed by
    [.py] or by [.js], the unsupported-script [ValueError] when it is not;
    in both cases the state is left as it was. *)
Theorem connect_error_by_suffix (w : World) (path : string) :
  let supported := (∃ p, path = p +:+ ".py") ∨ (∃ p, path = p +:+ ".js") in
  (supported →
     connect_to_local_mcp path w = (Raise (NameError "server_params"), w)) ∧
  (¬ supported →
     connect_to_local_mcp path w =
       (Raise (ValueError "Server script must be a .py or .js file"), w)).
Proof.
  cbn zeta. rewrite <- !endswith_spec. unfold connect_to_local_mcp.
  destruct (endswith path ".py"), (endswith path ".js"); simpl; split;
    try done.
  - intros H. destruct H. by left.
  - intros H. destruct H. by left.
  - intros H. destruct H. by right.
  - by intros [H|H].
Qed.

Lemma connect_error_by_suffix_witness :
  let w := mkWorld init [] (mkServer true true) in
  ((∃ p, "tools/server.js" = p +:+ ".py") ∨
   (∃ p, "tools/server.js" = p +:+ ".js")) ∧
  connect_to_local_mcp "tools/server.js" w
    = (Raise (NameError "server_params"), w) ∧
  ¬ ((∃ p, "server.PY" = p +:+ ".py") ∨ (∃ p, "server.PY" = p +:+ ".js")) ∧
  connect_to_local_mcp "server.PY" w
    = (Raise (ValueError "Server script must be a .py or .js file"), w).
Proof.
  cbn zeta.
  assert ((∃ p, "tools/server.js" = p +:+ ".py") ∨
          (∃ p, "tools/server.js" = p +:+ ".js")) as Hyes.
  { right. exists "tools/server". reflexivity. }
  assert (¬ ((∃ p, "server.PY" = p +:+ ".py") ∨
             (∃ p, "server.PY" = p +:+ ".js"))) as Hno.
  { intros [H|H]; apply (proj2 (endswith_spec _ _)) in H; discriminate H. }
  split; [exact Hyes |]. split.
  - exact (proj1 (connect_error_by_suffix
                    (mkWorld init [] (mkServer true true)) "tools/server.js")
             Hyes).
  - split; [exact Hno |].
    exact (proj2 (connect_error_by_suffix
                    (mkWorld init [] (mkServer true true)) "server.PY") Hno).
Defined.

End ClientMore.

(** ** The Azure agent *)

Module AzureProps.
Import AzureOpenAIAgent.

Lemma truthy_Some (o : option string) :
  truthy o = true ↔ ∃ s, o = Some s ∧ s ≠ EmptyString.
Proof.
  destruct o as [s|]; simpl.
  - rewrite negb_true_iff, bool_decide_eq_false. split.
    + intros Hs. by exists s.
    + by intros (s' & [= <-] & Hs).
  - split; [done | by intros (s & ? & _)].
Qed.

(** X14.  Lines 8-14, the reading of the environment before any client is
    made: the [ValueError] of line 14 is raised exactly when
    [AZURE_OPENAI_API_BASE] or [AZURE_OPENAI_API_KEY] is unset or empty;
    otherwise the four settings are bound to what the environment holds,
    the API version and the model name falling back to [2023-05-15] and
    [gpt-4o] only when their variable is unset. *)
Theorem read_environment_needs_endpoint_and_key
    (environ : gmap string string) :
  let configured :=
    ∃ b k, environ !! "AZURE_OPENAI_API_BASE" = Some b ∧ b ≠ EmptyString ∧
           environ !! "AZURE_OPENAI_API_KEY" = Some k ∧ k ≠ EmptyString in
  (configured →
     ∃ s, read_environment environ = Ok s ∧
          BASE_URL s = environ !! "AZURE_OPENAI_API_BASE" ∧
          API_KEY s = environ !! "AZURE_OPENAI_API_KEY" ∧
          API_VERSION s =
            default "2023-05-15" (environ !! "AZURE_OPENAI_API_VERSION") ∧
          MODEL_NAME s =
            default "gpt-4o" (environ !! "AZURE_OPENAI_MODEL_NAME")) ∧
  (¬ configured →
     read_environment environ =
       Raise (ValueError
         "Azure OpenAI API base URL and API key must be set in environment variables.")).
Proof.
  cbn zeta. unfold read_environment, getenv, getenv_default.
  destruct (truthy (environ !! "AZURE_OPENAI_API_BASE")) eqn:Hb;
    destruct (truthy (environ !! "AZURE_OPENAI_API_KEY")) eqn:Hk; simpl;
    split; try done; try (by eexists).
  - intros Hno. destruct Hno.
    apply truthy_Some in Hb as (b & Hb & Hbne).
    apply truthy_Some in Hk as (k & Hk & Hkne). by exists b, k.
  - intros (b & k & _ & _ & Hk' & Hkne).
    assert (truthy (environ !! "AZURE_OPENAI_API_KEY") = true) as Ht
      by (apply truthy_Some; eauto).
    congruence.
  - intros (b & k & Hb' & Hbne & _).
    assert (truthy (environ !! "AZURE_OPENAI_API_BASE") = true) as Ht
      by (apply truthy_Some; eauto).
    congruence.
  - intros (b & k & Hb' & Hbne & _).
    assert (truthy (environ !! "AZURE_OPENAI_API_BASE") = true) as Ht
      by (apply truthy_Some; eauto).
    congruence.
Qed.

Lemma read_environment_needs_endpoint_and_key_witness :
  let good : gmap string string :=
    {[ "AZURE_OPENAI_API_BASE" := "https://example.openai.azure.com";
       "AZURE_OPENAI_API_KEY" := "secret";
       "AZURE_OPENAI_API_VERSION" := EmptyString ]} in
  let bad : gmap string string :=
    {[ "AZURE_OPENAI_API_BASE" := "https://example.openai.azure.com";
       "AZURE_OPENAI_API_KEY" := EmptyString ]} in
  (∃ b k, good !! "AZURE_OPENAI_API_BASE" = Some b ∧ b ≠ EmptyString ∧
          good !! "AZURE_OPENAI_API_KEY" = Some k ∧ k ≠ EmptyString) ∧
  (∃ s, read_environment good = Ok s ∧
        API_VERSION s = EmptyString ∧ MODEL_NAME s = "gpt-4o") ∧
  ¬ (∃ b k, bad !! "AZURE_OPENAI_API_BASE" = Some b ∧ b ≠ EmptyString ∧
            bad !! "AZURE_OPENAI_API_KEY" = Some k ∧ k ≠ EmptyString) ∧
  read_environment bad =
    Raise (ValueError
      "Azure OpenAI API base URL and API key must be set in environment variables.").
Proof.
  cbn zeta.
  assert (∃ b k,
    ({[ "AZURE_OPENAI_API_BASE" := "https://example.openai.azure.com";
        "AZURE_OPENAI_API_KEY" := "secret";
        "AZURE_OPENAI_API_VERSION" := EmptyString ]} : gmap string string)
      !! "AZURE_OPENAI_API_BASE" = Some b ∧ b ≠ EmptyString ∧
    ({[ "AZURE_OPENAI_API_BASE" := "https://example.openai.azure.com";
        "AZURE_OPENAI_API_KEY" := "secret";
        "AZURE_OPENAI_API_VERSION" := EmptyString ]} : gmap string string)
      !! "AZURE_OPENAI_API_KEY" = Some k ∧ k ≠ EmptyString) as Hyes.
  { exists "https://example.openai.azure.com", "secret".
    split; [reflexivity |]. split; [discriminate |].
    split; [reflexivity | discriminate]. }
  assert (¬ ∃ b k,
    ({[ "AZURE_OPENAI_API_BASE" := "https://example.openai.azure.com";
        "AZURE_OPENAI_API_KEY" := EmptyString ]} : gmap string string)
      !! "AZURE_OPENAI_API_BASE" = Some b ∧ b ≠ EmptyString ∧
    ({[ "AZURE_OPENAI_API_BASE" := "https://example.openai.azure.com";
        "AZURE_OPENAI_API_KEY" := EmptyString ]} : gmap string string)
      !! "AZURE_OPENAI_API_KEY" = Some k ∧ k ≠ EmptyString) as Hno.
  { intros (b & k & _ & _ & Hk & Hkne). vm_compute in Hk.
    injection Hk as <-. by apply Hkne. }
  split; [exact Hyes |]. split.
  - destruct (proj1 (read_environment_needs_endpoint_and_key _) Hyes)
      as (s & Hs & _ & _ & Hv & Hm).
    exists s. split; [exact Hs |].
    split; [rewrite Hv | rewrite Hm]; reflexivity.
  - split; [exact Hno |].
    exact (proj2 (read_environment_needs_endpoint_and_key _) Hno).
Defined.

Lemma abstractmethods_Agent :
  abstractmethods Agent_class = ["query"; "get_token_count"].
Proof. reflexivity. Qed.





End AzureProps.
